(** * gemini_api.py: intake endpoint, queue manager, dispatcher and worker

    A shallow embedding of [src/gemini_api.py].  The two Cloud Functions
    ([api_endpoint], [api_call_worker]) and their helpers are written in a
    small state-and-exception monad: the state records, in order, every call
    the code makes to a library outside the file (Cloud Tasks client,
    Vertex AI, the file system) and every logging record; the answers of
    those libraries come from a [World], an arbitrary function of the call
    and of the calls made before it.

    Strings are byte strings (UTF-8).  Prefix, suffix and substring tests
    against ASCII literals agree with Python's tests on the decoded text.

    Exceptions are the instances of Python's [Exception]: what
    [except Exception] catches.  Interpreter signals outside that class
    (KeyboardInterrupt, SystemExit) are not represented. *)

From Stdlib Require Import Floats.PrimFloat.
From stdpp Require Import gmap strings list pretty.

Set Warnings "-register-all".
Local Open Scope string_scope.

(** ** Python values and builtins *)

Module Py.

(** str.startswith(prefix) *)
Fixpoint startswith (s prefix : string) {struct prefix} : bool :=
  match prefix, s with
  | EmptyString, _ => true
  | String _ _, EmptyString => false
  | String a p, String b t => if Ascii.eqb a b then startswith t p else false
  end.

(** needle in haystack, for two strings *)
Fixpoint contains (needle haystack : string) : bool :=
  startswith haystack needle
  || match haystack with
     | EmptyString => false
     | String _ t => contains needle t
     end.

(** str.endswith(suffix): the suffix sits at offset len(s) - len(suffix) *)
Fixpoint drop_str (n : nat) (s : string) : string :=
  match n, s with
  | O, _ => s
  | S _, EmptyString => EmptyString
  | S k, String _ t => drop_str k t
  end.

Definition endswith (s suffix : string) : bool :=
  (String.length suffix <=? String.length s)%nat
  && String.eqb (drop_str (String.length s - String.length suffix) s) suffix.

(** What json (and yaml.safe_load, for the string-keyed part of a mapping)
    hands to the program. *)
Inductive pyval :=
| PNone
| PBool (b : bool)
| PInt (z : Z)
| PFloat (f : float)
| PStr (s : string)
| PList (l : list pyval)
| PDict (m : gmap string pyval).

(** bool(v), as tested by [if v] and [v and ...] *)
Definition truthy (v : pyval) : bool :=
  match v with
  | PNone => false
  | PBool b => b
  | PInt z => negb (Z.eqb z 0)
  | PFloat f => negb (PrimFloat.eqb f 0%float)
  | PStr s => negb (Nat.eqb (String.length s) 0)
  | PList l => negb (Nat.eqb (length l) 0)
  | PDict m => negb (Nat.eqb (size m) 0)
  end.

(** type(v).__name__ *)
Definition type_name (v : pyval) : string :=
  match v with
  | PNone => "NoneType"
  | PBool _ => "bool"
  | PInt _ => "int"
  | PFloat _ => "float"
  | PStr _ => "str"
  | PList _ => "list"
  | PDict _ => "dict"
  end.

(** An instance of Exception: its class and str(e).  The texts of the
    interpreter's own errors below are those of CPython 3.11. *)
Record exn := Exception { exn_class : string; exn_str : string }.

Inductive outcome (A : Type) :=
| Returns (a : A)
| Raises (e : exn).
Arguments Returns {A} a.
Arguments Raises {A} e.

Definition AttributeError (v : pyval) (attr : string) : exn :=
  Exception "AttributeError"
    ("'" ++ type_name v ++ "' object has no attribute '" ++ attr ++ "'").

Definition TypeError (msg : string) : exn := Exception "TypeError" msg.

Definition KeyError (k : string) : exn := Exception "KeyError" ("'" ++ k ++ "'").

(** x == "k" for an element x of a list *)
Definition eq_str (k : string) (x : pyval) : bool :=
  match x with
  | PStr s => String.eqb s k
  | _ => false
  end.

(** "k" in v *)
Definition py_in (k : string) (v : pyval) : outcome bool :=
  match v with
  | PDict m => Returns (bool_decide (is_Some (m !! k)))
  | PList l => Returns (existsb (eq_str k) l)
  | PStr s => Returns (contains k s)
  | _ => Raises (TypeError ("argument of type '" ++ type_name v ++ "' is not iterable"))
  end.

(** v["k"] *)
Definition getitem (v : pyval) (k : string) : outcome pyval :=
  match v with
  | PDict m =>
      match m !! k with
      | Some x => Returns x
      | None => Raises (KeyError k)
      end
  | PList _ => Raises (TypeError "list indices must be integers or slices, not str")
  | PStr _ => Raises (TypeError "string indices must be integers, not 'str'")
  | _ => Raises (TypeError ("'" ++ type_name v ++ "' object is not subscriptable"))
  end.

(** v.startswith(prefix) and v.endswith(suffix): str has them, the other
    types do not *)
Definition py_startswith (v : pyval) (prefix : string) : outcome bool :=
  match v with
  | PStr s => Returns (startswith s prefix)
  | _ => Raises (AttributeError v "startswith")
  end.

Definition py_endswith (v : pyval) (suffix : string) : outcome bool :=
  match v with
  | PStr s => Returns (endswith s suffix)
  | _ => Raises (AttributeError v "endswith")
  end.

(** v.get("k", default) *)
Definition get (v : pyval) (k : string) (dflt : pyval) : outcome pyval :=
  match v with
  | PDict m => Returns (default dflt (m !! k))
  | _ => Raises (AttributeError v "get")
  end.

End Py.

Import Py.

(** ** What the program hands to the libraries *)

(** The resource names built by the Cloud Tasks client's two path helpers,
    kept as the helper and its arguments.  Whether client.location_path
    gives its value at all is for the library to say: see the call
    [client_location_path]. *)
Inductive resource_path :=
| queue_path (project : option string) (location : string) (queue : pyval)
| location_path (project : option string) (location : string).

(** The [queue] dictionary of [create_queue]. *)
Record Queue := {
  name : resource_path;
  rate_limits : pyval;
  retry_config : pyval
}.

Inductive HttpMethod := POST.

(** The [task] dictionary of [create_cloud_task].  [body] holds the object
    given to json.dumps, whose encoded text is the payload on the wire. *)
Record HttpRequest := {
  http_method : HttpMethod;
  http_url : string;
  headers : gmap string string;
  body : pyval
}.

Record Task := { http_request : HttpRequest }.

Record GenerationConfig := {
  max_output_tokens : Z;
  temperature : float;
  response_mime_type : string;
  response_schema : pyval
}.

Record GenerativeModel := {
  model_name : string;
  system_instruction : string
}.

(** An element of the [contents] list of generate_content. *)
Inductive content :=
| Part_from_uri (mime_type : string) (uri : pyval)
| Text (s : string).

(** What generate_content returns; the program never looks inside. *)
Record GenerationResponse := { response_payload : string }.

(** What create_task returns; the program reads its [name]. *)
Record TaskResponse := { task_name : string }.

(** ** Calls to code outside the file *)

Inductive call :=
| open_ (file mode : string)
| yaml_safe_load (stream : string)
| CloudTasksClient
| client_get_queue (name : resource_path)
| client_location_path (project : option string) (location : string)
| client_create_queue (parent : resource_path) (queue : Queue)
| client_create_task (parent : resource_path) (task : Task)
| vertexai_init (project : option string) (location : string)
| GenerationConfig_init (c : GenerationConfig)
| Part_from_uri_init (p : content)
| GenerativeModel_init (m : GenerativeModel)
| model_generate_content (model : GenerativeModel) (contents : list content)
    (generation_config : GenerationConfig).

(** What a call gives back when it returns.  An object built by a
    constructor is identified with the arguments it was built from, so the
    constructor calls give back nothing; so does client.location_path, whose
    value is [location_path] of its arguments when it returns. *)
Definition result_of (c : call) : Type :=
  match c with
  | open_ _ _ => string
  | yaml_safe_load _ => pyval
  | client_create_task _ _ => TaskResponse
  | model_generate_content _ _ _ => GenerationResponse
  | _ => unit
  end.

(** The libraries: every call returns or raises, as a function of the calls
    made before it (oldest first) and of the call. *)
Definition World := list call → ∀ c : call, outcome (result_of c).

(** ** Logging *)

Inductive level := INFO | ERROR.

(** logging.info(msg) has no exception; logging.exception(msg) is an ERROR
    record carrying the exception being handled. *)
Record log_record := {
  log_level : level;
  log_msg : string;
  log_exc : option exn
}.

(** ** The state threaded through the program *)

Record state := {
  calls : list call;
  log : list log_record;
  video_url : pyval   (* the local of [api_call_worker] read by its handler *)
}.

Definition start : state := {| calls := []; log := []; video_url := PNone |}.

Definition M (A : Type) : Type := state → outcome A * state.

#[export] Instance M_ret : MRet M := λ A a s, (Returns a, s).

#[export] Instance M_bind : MBind M := λ A B k m s,
  match m s with
  | (Returns a, s') => k a s'
  | (Raises e, s') => (Raises e, s')
  end.

(** try: body / except Exception as e: handler e *)
Definition try_except {A} (body : M A) (handler : exn → M A) : M A :=
  fun s =>
    match body s with
    | (Returns a, s') => (Returns a, s')
    | (Raises e, s') => handler e s'
    end.

(** A builtin that returns or raises without touching the state. *)
Definition lift {A} (o : outcome A) : M A := fun s => (o, s).

Definition logging_info (msg : string) : M unit :=
  fun s => (Returns (),
            {| calls := calls s;
               log := log s ++ [{| log_level := INFO; log_msg := msg; log_exc := None |}];
               video_url := video_url s |}).

Definition logging_exception (msg : string) (e : exn) : M unit :=
  fun s => (Returns (),
            {| calls := calls s;
               log := log s ++ [{| log_level := ERROR; log_msg := msg; log_exc := Some e |}];
               video_url := video_url s |}).

Definition set_video_url (v : pyval) : M unit :=
  fun s => (Returns (), {| calls := calls s; log := log s; video_url := v |}).

Definition get_video_url : M pyval := fun s => (Returns (video_url s), s).

(** The Flask request: all the program does with it is call get_json(). *)
Record Request := { get_json : outcome pyval }.

(** What a Cloud Function returns: a body and a status code. *)
Inductive payload :=
| Str (s : string)
| Response (r : GenerationResponse).

Definition response : Type := payload * Z.

(** ** The module's constants *)

Definition FUNCTION_NAME : string := "api-call-worker".

(** The globals computed when the module is loaded. *)
Record Globals := {
  PROJECT_ID : option string;   (* os.environ.get("PROJECT_ID") *)
  LOCATION : string;            (* os.environ.get("LOCATION", "us-central1") *)
  QUEUE_CONFIG : pyval          (* _load_queue_config() *)
}.

Local Open Scope Z_scope.

Section Program.

Variable W : World.

(** repr of a float, a list or a dict: the interpreter's, not modelled. *)
Variable py_repr : pyval → string.

(** A call to a library: the world answers, the call is recorded. *)
Definition ext (c : call) : M (result_of c) :=
  fun s => (W (calls s) c,
            {| calls := calls s ++ [c]; log := log s; video_url := video_url s |}).

(** The text an f-string puts for {v}. *)
Definition py_str (v : pyval) : string :=
  match v with
  | PNone => "None"
  | PBool true => "True"
  | PBool false => "False"
  | PInt z => pretty z
  | PStr s => s
  | _ => py_repr v
  end.

(** The same for a value that is a str or None. *)
Definition fmt (o : option string) : string := default "None" o.

Definition _load_queue_config : M pyval :=
  try_except
    (f ← ext (open_ "queue_config.yaml" "r");
     config ← ext (yaml_safe_load f);
     logging_info "Queue configuration loaded from YAML." ;;
     mret config)
    (λ e,
       logging_exception "Error loading queue_config.yaml:" e ;;
       mret (PDict ∅)).

(** Module initialisation, for the process environment [environ]. *)
Definition load_module (environ : gmap string string) : M Globals :=
  config ← _load_queue_config;
  mret {| PROJECT_ID := environ !! "PROJECT_ID";
          LOCATION := default "us-central1" (environ !! "LOCATION");
          QUEUE_CONFIG := config |}.

Section Functions.

Variable G : Globals.

Definition call_gemini (video_url : pyval) : M payload :=
  try_except
    (logging_info ("URL sent to Gemini: " ++ py_str video_url) ;;
     let schema :=
       PDict {[ "type" := PStr "object";
                "properties" :=
                  PDict {[ "IAB_Category" := PDict {[ "type" := PStr "STRING" ]} ]};
                "required" := PList [PStr "IAB_Category"] ]} in
     ext (vertexai_init (PROJECT_ID G) (LOCATION G)) ;;
     let generation_config :=
       {| max_output_tokens := 8192;
          temperature := 0%float;
          response_mime_type := "application/json";
          response_schema := schema |} in
     ext (GenerationConfig_init generation_config) ;;
     let video := Part_from_uri "video/mp4" video_url in
     ext (Part_from_uri_init video) ;;
     let model :=
       {| model_name := "gemini-1.5-pro-002";
          system_instruction := "You categorize a video ad into IAB categories. You return the name of only one IAB category which is the most relevant one" |} in
     ext (GenerativeModel_init model) ;;
     responses ← ext (model_generate_content model [video; Text "Please classify"] generation_config);
     mret (Response responses))
    (λ e,
       logging_exception ("Gemini call failed for URL: " ++ py_str video_url) e ;;
       mret (Str ("Gemini call failed for URL: " ++ py_str video_url
                  ++ ". Error: " ++ exn_str e))).

Definition create_cloud_task (url : pyval) : M string :=
  ext CloudTasksClient ;;
  queue_id ← lift (get (QUEUE_CONFIG G) "queue_id" PNone);
  let path := queue_path (PROJECT_ID G) (LOCATION G) queue_id in
  let task :=
    {| http_request :=
         {| http_method := POST;
            http_url := "https://" ++ LOCATION G ++ "-" ++ fmt (PROJECT_ID G)
                        ++ ".cloudfunctions.net/" ++ FUNCTION_NAME;
            headers := {[ "Content-type" := "application/json" ]};
            body := PDict {[ "url" := url ]} |} |} in
  response ← ext (client_create_task path task);
  logging_info ("Created task: " ++ task_name response ++ ". URL in queue: " ++ py_str url) ;;
  mret (task_name response).

Definition create_queue : M unit :=
  ext CloudTasksClient ;;
  queue_id ← lift (get (QUEUE_CONFIG G) "queue_id" PNone);
  let path := queue_path (PROJECT_ID G) (LOCATION G) queue_id in
  try_except
    (ext (client_get_queue path) ;;
     logging_info ("Queue '" ++ py_str queue_id ++ "' already exists."))
    (λ e,
       if contains "NOT_FOUND" (exn_str e) then
         limits ← lift (get (QUEUE_CONFIG G) "rate_limits" (PDict ∅));
         retry ← lift (get (QUEUE_CONFIG G) "retry_config" (PDict ∅));
         let queue := {| name := path; rate_limits := limits; retry_config := retry |} in
         ext (client_location_path (PROJECT_ID G) (LOCATION G)) ;;
         ext (client_create_queue (location_path (PROJECT_ID G) (LOCATION G)) queue) ;;
         logging_info ("Queue '" ++ py_str queue_id ++ "' created successfully.")
       else
         logging_exception "Error checking/creating queue:" e).

Definition api_endpoint (request : Request) : M response :=
  try_except
    (create_queue ;;
     request_json ← lift (get_json request);
     (if truthy request_json then lift (py_in "url" request_json) else mret false)
     ≫= λ has_url : bool,
     if has_url then
       url ← lift (getitem request_json "url");
       lift (py_startswith url "gs://") ≫= λ scheme_ok : bool,
       if negb scheme_ok then
         mret (Str "Error: URL must be a GCS path (start with gs://).", 400)
       else
         lift (py_endswith url ".mp4") ≫= λ extension_ok : bool,
         if negb extension_ok then
           mret (Str "Error: URL must point to an MP4 video file.", 400)
         else
           task ← create_cloud_task url;
           mret (Str ("URL queued for processing. Task name: " ++ task), 202)
     else
       mret (Str "Error: No URL provided in request body.", 400))
    (λ e,
       logging_exception "Error in api_endpoint:" e ;;
       mret (Str ("Error: " ++ exn_str e), 500)).

Definition api_call_worker (request : Request) : M response :=
  set_video_url PNone ;;
  try_except
    (request_json ← lift (get_json request);
     (if truthy request_json then lift (py_in "url" request_json) else mret false)
     ≫= λ has_url : bool,
     if has_url then
       url ← lift (getitem request_json "url");
       set_video_url url ;;
       result ← call_gemini url;
       mret (result, 200)
     else
       mret (Str "Error: No URL provided in request body.", 400))
    (λ e,
       url ← get_video_url;
       logging_exception ("Error in api_call_worker for URL: " ++ py_str url ++ ":") e ;;
       mret (Str ("Non-Gemini Error for URL: " ++ py_str url
                  ++ ". Error: " ++ exn_str e), 500)).

End Functions.

End Program.

(** ** Worlds and requests used as concrete inputs *)

Module Scenario.

(** Every call the libraries have returns.  The Cloud Tasks client of the
    API the program is written for (request=..., tasks_v2.HttpMethod:
    google-cloud-tasks 2.x) has no location_path method, so that call raises
    AttributeError. *)
Definition all_fine : World := fun _ c =>
  match c return outcome (result_of c) with
  | open_ _ _ => Returns "queue_id: api-call-queue"
  | yaml_safe_load _ => Returns (PDict {[ "queue_id" := PStr "api-call-queue" ]})
  | CloudTasksClient => Returns ()
  | client_get_queue _ => Returns ()
  | client_location_path _ _ =>
      Raises (Exception "AttributeError"
                "'CloudTasksClient' object has no attribute 'location_path'")
  | client_create_queue _ _ => Returns ()
  | client_create_task _ _ => Returns {| task_name := "tasks/1" |}
  | vertexai_init _ _ => Returns ()
  | GenerationConfig_init _ => Returns ()
  | Part_from_uri_init _ => Returns ()
  | GenerativeModel_init _ => Returns ()
  | model_generate_content _ _ _ => Returns {| response_payload := "{}" |}
  end.

(** The inference service cannot be reached. *)
Definition classifier_down : World := fun h c =>
  match c return outcome (result_of c) with
  | model_generate_content _ _ _ => Raises (Exception "ServiceUnavailable" "503 unreachable")
  | other => all_fine h other
  end.

(** The queue lookup fails, and not with a not-found condition. *)
Definition lookup_unavailable : World := fun h c =>
  match c return outcome (result_of c) with
  | client_get_queue _ => Raises (Exception "ServiceUnavailable" "503 UNAVAILABLE")
  | other => all_fine h other
  end.

(** The queue is reported missing, and is there when creation is tried: a
    creation request would be answered that the queue already exists. *)
Definition creation_race : World := fun h c =>
  match c return outcome (result_of c) with
  | client_get_queue _ => Raises (Exception "NotFound" "404 NOT_FOUND: queue does not exist")
  | client_create_queue _ _ => Raises (Exception "AlreadyExists" "409 ALREADY_EXISTS: queue exists")
  | other => all_fine h other
  end.


(** The queue service refuses the task. *)
Definition enqueue_refused : World := fun h c =>
  match c return outcome (result_of c) with
  | client_create_task _ _ => Raises (Exception "ResourceExhausted" "429 quota exceeded")
  | other => all_fine h other
  end.

(** The globals after loading an empty configuration file, parsed to None. *)
Definition globals_without_config : Globals :=
  {| PROJECT_ID := None; LOCATION := "us-central1"; QUEUE_CONFIG := PNone |}.

(** A request whose body is not JSON. *)
Definition unreadable : Request :=
  {| get_json := Raises (Exception "BadRequest" "400 Bad Request: Failed to decode JSON object") |}.

Definition repr : pyval → string := fun _ => "<repr>".

Definition globals : Globals :=
  {| PROJECT_ID := Some "proj";
     LOCATION := "us-central1";
     QUEUE_CONFIG := PDict {[ "queue_id" := PStr "api-call-queue" ]} |}.

Definition post (v : pyval) : Request := {| get_json := Returns v |}.

Definition post_url (u : string) : Request := post (PDict {[ "url" := PStr u ]}).

End Scenario.

(** ** Vocabulary of the statements *)

(** The three 400 answers of the two endpoints. *)
Definition InvalidScheme : response :=
  (Str "Error: URL must be a GCS path (start with gs://).", 400).

Definition InvalidExtension : response :=
  (Str "Error: URL must point to an MP4 video file.", 400).

Definition MissingUrl : response :=
  (Str "Error: No URL provided in request body.", 400).

(** The status code of a handler's answer, when it returns one. *)
Definition status (r : outcome response) : option Z :=
  match r with
  | Returns (_, code) => Some code
  | Raises _ => None
  end.

(** The body has no "url" entry to read: get_json() gives something other
    than an object with that key. *)
Definition no_url_field (request : Request) : Prop :=
  ∀ m : gmap string pyval, get_json request = Returns (PDict m) → m !! "url" = None.

(** The request is turned down by the checks of api_endpoint: no url in the
    body, or a url string with the wrong scheme or the wrong extension. *)
Definition fails_validation (request : Request) : Prop :=
  ∃ v, get_json request = Returns v
       ∧ (truthy v = false
          ∨ py_in "url" v = Returns false
          ∨ ∃ m u, v = PDict m ∧ m !! "url" = Some (PStr u)
                   ∧ (startswith u "gs://" = false ∨ endswith u ".mp4" = false)).

(** Recognisers for the calls that the statements count. *)
Definition is_create_task (c : call) : bool :=
  match c with
  | client_create_task _ _ => true
  | _ => false
  end.

Definition is_create_queue (c : call) : bool :=
  match c with
  | client_create_queue _ _ => true
  | _ => false
  end.

Definition is_generate_content (c : call) : bool :=
  match c with
  | model_generate_content _ _ _ => true
  | _ => false
  end.

(** The calls of call_gemini on [v], in program order: the four that
    prepare the request, then the request to the model. *)
Definition inference_config : GenerationConfig :=
  {| max_output_tokens := 8192;
     temperature := 0%float;
     response_mime_type := "application/json";
     response_schema :=
       PDict {[ "type" := PStr "object";
                "properties" :=
                  PDict {[ "IAB_Category" := PDict {[ "type" := PStr "STRING" ]} ]};
                "required" := PList [PStr "IAB_Category"] ]} |}.

Definition inference_model : GenerativeModel :=
  {| model_name := "gemini-1.5-pro-002";
     system_instruction := "You categorize a video ad into IAB categories. You return the name of only one IAB category which is the most relevant one" |}.

Definition inference_setup (G : Globals) (v : pyval) : list call :=
  [ vertexai_init (PROJECT_ID G) (LOCATION G);
    GenerationConfig_init inference_config;
    Part_from_uri_init (Part_from_uri "video/mp4" v);
    GenerativeModel_init inference_model ].

Definition inference_request (v : pyval) : call :=
  model_generate_content inference_model
    [Part_from_uri "video/mp4" v; Text "Please classify"] inference_config.

Definition inference_calls (G : Globals) (v : pyval) : list call :=
  inference_setup G v ++ [inference_request v].

(** Making the calls [cs] one after the other in the world [W], after the
    calls [h], and stopping at the first that raises: the calls made, the
    one that raised included, and the exception if there was one. *)
Fixpoint attempt (W : World) (h cs : list call) : list call * option exn :=
  match cs with
  | [] => ([], None)
  | c :: rest =>
      match W h c with
      | Returns _ =>
          let (made, failure) := attempt W (h ++ [c]) rest in (c :: made, failure)
      | Raises e => ([c], Some e)
      end
  end.

(** The same in words.  Every call of [cs], made after [h] and the calls
    of [cs] before it, returns. *)
Definition all_return (W : World) (h cs : list call) : Prop :=
  ∀ i c, cs !! i = Some c → ∃ a, W (h ++ take i cs)%list c = Returns a.

(** A call of [cs] raises [e], made after [h] and the calls of [cs] before
    it, which all returned. *)
Definition first_to_raise (W : World) (h cs : list call) (e : exn) : Prop :=
  ∃ n c, cs !! n = Some c
         ∧ W (h ++ take n cs)%list c = Raises e
         ∧ ∀ i c', (i < n)%nat → cs !! i = Some c' →
                   ∃ a, W (h ++ take i cs)%list c' = Returns a.

(** The message call_gemini returns for the url text [url] and the
    exception [e]. *)
Definition failure_message (url : string) (e : exn) : string :=
  "Gemini call failed for URL: " ++ url ++ ". Error: " ++ exn_str e.

(** The two logging records of call_gemini. *)
Definition url_record (url : string) : log_record :=
  {| log_level := INFO; log_msg := "URL sent to Gemini: " ++ url; log_exc := None |}.

Definition failure_record (url : string) (e : exn) : log_record :=
  {| log_level := ERROR; log_msg := "Gemini call failed for URL: " ++ url;
     log_exc := Some e |}.

(** What the libraries make of a classification of [v], whose text is
    [url], after the calls [h]: the calls made, the exception that stopped
    them if one did, the logging records, and the answer, which is the
    model's response when the five calls returned and the failure message
    for the exception otherwise. *)
Definition classifier_calls (W : World) (G : Globals) (v : pyval) (h : list call)
  : list call :=
  fst (attempt W h (inference_calls G v)).

Definition classifier_failure (W : World) (G : Globals) (v : pyval) (h : list call)
  : option exn :=
  snd (attempt W h (inference_calls G v)).

Definition classifier_log (W : World) (G : Globals) (url : string) (v : pyval)
    (h : list call) : list log_record :=
  match classifier_failure W G v h with
  | Some e => [url_record url; failure_record url e]
  | None => [url_record url]
  end.

Definition classifier_answer (W : World) (G : Globals) (url : string) (v : pyval)
    (h : list call) : payload :=
  match classifier_failure W G v h with
  | Some e => Str (failure_message url e)
  | None =>
      match W (h ++ inference_setup G v)%list (inference_request v) with
      | Returns r => Response r
      | Raises e => Str (failure_message url e)
      end
  end.

(** ** The string builtins mean what their names say *)

Section Strings.

Lemma app_nil_str (t : string) : "" ++ t = t.
Proof. reflexivity. Qed.

Lemma app_cons_str (c : Ascii.ascii) (s t : string) :
  String c s ++ t = String c (s ++ t).
Proof. reflexivity. Qed.

Lemma startswith_spec (s p : string) :
  startswith s p = true ↔ ∃ t, s = p ++ t.
Proof.
  revert s. induction p as [|a p IH]; intros s; simpl.
  - split; [intros _; by exists s | done].
  - setoid_rewrite app_cons_str. destruct s as [|b s].
    + split; [done | intros [t Ht]; discriminate].
    + destruct (Ascii.eqb_spec a b) as [->|Hne].
      * rewrite IH. split; intros [t Ht]; exists t; [by rewrite Ht | by injection Ht].
      * split; [done | intros [t Ht]; injection Ht; congruence].
Qed.

Lemma length_app_str (a b : string) :
  String.length (a ++ b) = (String.length a + String.length b)%nat.
Proof. induction a; rewrite ?app_cons_str; simpl; [done | by rewrite IHa]. Qed.

Lemma drop_str_app (a b : string) : drop_str (String.length a) (a ++ b) = b.
Proof. induction a; rewrite ?app_cons_str; simpl; [by destruct b | done]. Qed.

Lemma drop_str_split (n : nat) (s : string) : ∃ t, s = t ++ drop_str n s.
Proof.
  revert s. induction n as [|n IH]; intros s.
  - by exists "".
  - destruct s as [|c s]; simpl.
    + by exists "".
    + destruct (IH s) as [t Ht]. exists (String c t). rewrite app_cons_str. by f_equal.
Qed.

Lemma endswith_spec (s p : string) :
  endswith s p = true ↔ ∃ t, s = t ++ p.
Proof.
  unfold endswith. rewrite andb_true_iff, Nat.leb_le, String.eqb_eq. split.
  - intros [_ Hd]. destruct (drop_str_split (String.length s - String.length p) s) as [t Ht].
    exists t. by rewrite Hd in Ht.
  - intros [t ->]. rewrite length_app_str. split; [lia |].
    replace (String.length t + String.length p - String.length p)%nat
      with (String.length t) by lia.
    apply drop_str_app.
Qed.

Lemma contains_spec (n h : string) :
  contains n h = true ↔ ∃ a b, h = a ++ n ++ b.
Proof.
  induction h as [|c h IH]; simpl; rewrite orb_true_iff, startswith_spec.
  - split.
    + intros [[t Ht]|?]; [| done]. by exists "", t.
    + intros ([|? a] & b & Hab); [| discriminate]. left. by exists b.
  - rewrite IH. split.
    + intros [[t Ht]|(a & b & Hab)]; [by exists "", t |].
      exists (String c a), b. rewrite app_cons_str. by rewrite Hab.
    + intros ([|c' a] & b & Hab); [left; by exists b |].
      right. exists a, b. rewrite app_cons_str in Hab. by injection Hab.
Qed.

End Strings.

(** ** Running the monad *)

Ltac run :=
  unfold mbind, M_bind, mret, M_ret, try_except, lift, ext, logging_info,
    logging_exception, set_video_url, get_video_url;
  cbn [fst snd calls log video_url start app].

(** Case analysis on the answer of the next library call. *)
Ltac ask W :=
  match goal with
  | |- context [W ?h ?c] =>
      destruct (W h c) eqn:?; cbn [fst snd calls log video_url app]
  end.

(** Case analysis on the next test the program makes on its data. *)
Ltac branch :=
  match goal with
  | |- context [if ?b then _ else _] => destruct b eqn:?
  | |- context [match ?m !! ?k with _ => _ end] => destruct (m !! k) eqn:?
  end; cbn [fst snd calls log video_url app status negb].

Section Classifier.

Context (W : World) (py_repr : pyval → string) (G : Globals).

(** What [attempt] says: with an exception, the calls made are those up
    to one that raised it, all the calls before that one having returned;
    without, all the calls were made and returned.  Each call is answered
    by the world after the calls before it. *)
Lemma attempt_spec (h cs : list call) :
  match snd (attempt W h cs) with
  | Some e =>
      ∃ n c, cs !! n = Some c
             ∧ fst (attempt W h cs) = take (S n) cs
             ∧ W (h ++ take n cs)%list c = Raises e
             ∧ ∀ i c', (i < n)%nat → cs !! i = Some c' →
                       ∃ a, W (h ++ take i cs)%list c' = Returns a
  | None =>
      fst (attempt W h cs) = cs
      ∧ ∀ i c', cs !! i = Some c' → ∃ a, W (h ++ take i cs)%list c' = Returns a
  end.
Proof.
  revert h. induction cs as [|c cs IH]; intros h; cbn [attempt].
  - cbn [fst snd]. split; [done | by intros i c' [=]].
  - destruct (W h c) as [a|e] eqn:Hc.
    + specialize (IH (h ++ [c])%list).
      destruct (attempt W (h ++ [c])%list cs) as [made [e|]]; cbn [fst snd] in *.
      * destruct IH as (n & c0 & Hn & Hmade & Hraise & Hbefore).
        exists (S n), c0. split_and!; [done | by rewrite Hmade | |].
        { cbn [take]. by rewrite <- app_assoc in Hraise. }
        intros [|i] c' Hi Hc'.
        { injection Hc' as <-. exists a. cbn [take]. by rewrite app_nil_r. }
        destruct (Hbefore i c') as [a' Ha']; [lia | done |].
        exists a'. cbn [take]. by rewrite <- app_assoc in Ha'.
      * destruct IH as (Hmade & Hall). split; [by rewrite Hmade |].
        intros [|i] c' Hc'.
        { injection Hc' as <-. exists a. cbn [take]. by rewrite app_nil_r. }
        destruct (Hall i c') as [a' Ha']; [done |].
        exists a'. cbn [take]. by rewrite <- app_assoc in Ha'.
    + cbn [fst snd]. exists 0%nat, c. split_and!; [done | done | | intros; lia].
      cbn [take]. by rewrite app_nil_r.
Qed.

Lemma attempt_failure_iff (h cs : list call) (e : exn) :
  snd (attempt W h cs) = Some e ↔ first_to_raise W h cs e.
Proof.
  pose proof (attempt_spec h cs) as Hspec. split.
  - intros Hf. rewrite Hf in Hspec.
    destruct Hspec as (n & c & Hn & _ & Hraise & Hbefore). by exists n, c.
  - intros (n & c & Hn & Hraise & Hbefore).
    destruct (snd (attempt W h cs)) as [e'|].
    + destruct Hspec as (n' & c' & Hn' & _ & Hraise' & Hbefore').
      destruct (lt_eq_lt_dec n n') as [[Hlt | ->] | Hlt].
      * destruct (Hbefore' n c Hlt Hn) as [a Ha]. rewrite Ha in Hraise. discriminate.
      * rewrite Hn in Hn'. injection Hn' as <-. rewrite Hraise in Hraise'.
        by injection Hraise' as <-.
      * destruct (Hbefore n' c' Hlt Hn') as [a Ha]. rewrite Ha in Hraise'. discriminate.
    + destruct Hspec as [_ Hall]. destruct (Hall n c Hn) as [a Ha].
      rewrite Ha in Hraise. discriminate.
Qed.

Lemma attempt_none_iff (h cs : list call) :
  snd (attempt W h cs) = None ↔ all_return W h cs.
Proof.
  pose proof (attempt_spec h cs) as Hspec. split.
  - intros Hf. rewrite Hf in Hspec. by destruct Hspec.
  - intros Hall. destruct (snd (attempt W h cs)) as [e|]; [| done].
    destruct Hspec as (n & c & Hn & _ & Hraise & _).
    destruct (Hall n c Hn) as [a Ha]. rewrite Ha in Hraise. discriminate.
Qed.

(** When no call of [cs] followed by [c] raises, [c] returns, after [cs]. *)
Lemma attempt_last_returns (h cs : list call) (c : call) :
  snd (attempt W h (cs ++ [c])) = None → ∃ a, W (h ++ cs)%list c = Returns a.
Proof.
  revert h. induction cs as [|c' cs IH]; intros h; cbn [app attempt].
  - rewrite app_nil_r. destruct (W h c) as [a|e]; [by exists a | by intros [=]].
  - destruct (W h c') as [a|e]; [| by intros [=]].
    destruct (attempt W (h ++ [c'])%list (cs ++ [c])) as [made failure] eqn:Hrest.
    cbn [snd]. intros ->. destruct (IH (h ++ [c'])%list) as [a' Ha'].
    + by rewrite Hrest.
    + exists a'. by rewrite <- app_assoc in Ha'.
Qed.

(** The answer is the response the model gave to the request, all five
    calls having returned, or the message for the exception of the first
    call to raise. *)
Lemma classifier_answer_cases (url : string) (v : pyval) (h : list call) :
  (∃ r, all_return W h (inference_calls G v)
        ∧ W (h ++ inference_setup G v)%list (inference_request v) = Returns r
        ∧ classifier_answer W G url v h = Response r)
  ∨ (∃ e, first_to_raise W h (inference_calls G v) e
          ∧ classifier_answer W G url v h = Str (failure_message url e)).
Proof.
  unfold classifier_answer.
  destruct (classifier_failure W G v h) as [e|] eqn:Hf.
  - right. exists e. split; [by apply attempt_failure_iff | done].
  - left. destruct (attempt_last_returns h (inference_setup G v) (inference_request v) Hf)
      as [r Hr].
    exists r. rewrite Hr. split; [by apply attempt_none_iff | done].
Qed.



(** call_gemini from any state: it always returns, with the answer, the
    calls and the logging records that the libraries decide, and leaves the
    caller's local alone. *)
Lemma call_gemini_run (v : pyval) (s : state) :
  call_gemini W py_repr G v s
  = (Returns (classifier_answer W G (py_str py_repr v) v (calls s)),
     {| calls := (calls s ++ classifier_calls W G v (calls s))%list;
        log := (log s ++ classifier_log W G (py_str py_repr v) v (calls s))%list;
        video_url := video_url s |}).
Proof.
  unfold call_gemini, classifier_answer, classifier_log, classifier_calls,
    classifier_failure, inference_calls, inference_setup, inference_request,
    inference_model, inference_config, failure_message, url_record, failure_record.
  run. cbn [attempt app].
  repeat (ask W; rewrite <- ?app_assoc; cbn [app fst snd attempt]).
  all: try reflexivity.
Qed.

End Classifier.

Section Worker.

Context (W : World) (py_repr : pyval → string) (G : Globals).

Lemma truthy_dict_with_key (m : gmap string pyval) (k : string) (x : pyval) :
  m !! k = Some x → truthy (PDict m) = true.
Proof.
  intros Hk. simpl. apply negb_true_iff, Nat.eqb_neq.
  apply (map_size_ne_0_lookup_2 m k). by exists x.
Qed.

(** The handler's message holds the url it was built from. *)
Lemma failure_message_contains_url (u err : string) :
  contains u ("Gemini call failed for URL: " ++ u ++ ". Error: " ++ err) = true.
Proof. apply contains_spec. by eexists _, _. Qed.

(** With a "url" entry in the body the worker runs call_gemini on its
    value and answers 200 with what call_gemini returned. *)
Lemma worker_run_with_url
    (request : Request) (m : gmap string pyval) (u : pyval) :
  get_json request = Returns (PDict m) →
  m !! "url" = Some u →
  api_call_worker W py_repr G request start
  = (Returns (classifier_answer W G (py_str py_repr u) u [], 200),
     {| calls := classifier_calls W G u [];
        log := classifier_log W G (py_str py_repr u) u [];
        video_url := u |}).
Proof.
  intros Hjson Hurl. unfold api_call_worker. run. rewrite Hjson.
  rewrite (truthy_dict_with_key _ _ _ Hurl). unfold py_in.
  rewrite bool_decide_true by eauto. unfold getitem. rewrite Hurl.
  cbn [fst snd]. by rewrite call_gemini_run.
Qed.

(** C1: a body with a url field whose value starts with gs:// and ends with
    .mp4 makes api_call_worker answer 200 with the answer of the classifier
    as the libraries decide it: the response the model gave to the request,
    once the four calls before the request returned, or, when one of the
    five calls raised, the error string built from the url and from the
    exception of the first that did, a string that contains the url.  And
    call_gemini raises in no state and no world: it returns that answer. *)
Theorem worker_valid_url_returns_200
    (request : Request) (m : gmap string pyval) (u : string) :
  get_json request = Returns (PDict m) →
  m !! "url" = Some (PStr u) →
  startswith u "gs://" = true →
  endswith u ".mp4" = true →
  fst (api_call_worker W py_repr G request start)
  = Returns (classifier_answer W G u (PStr u) [], 200)
  ∧ ((∃ r, all_return W [] (inference_calls G (PStr u))
           ∧ W (inference_setup G (PStr u)) (inference_request (PStr u)) = Returns r
           ∧ classifier_answer W G u (PStr u) [] = Response r)
     ∨ (∃ e, first_to_raise W [] (inference_calls G (PStr u)) e
             ∧ classifier_answer W G u (PStr u) []
               = Str ("Gemini call failed for URL: " ++ u ++ ". Error: " ++ exn_str e)
             ∧ contains u ("Gemini call failed for URL: " ++ u
                           ++ ". Error: " ++ exn_str e) = true))
  ∧ (∀ (v : pyval) (s : state),
       fst (call_gemini W py_repr G v s)
       = Returns (classifier_answer W G (py_str py_repr v) v (calls s))
       ∧ ((∃ r, all_return W (calls s) (inference_calls G v)
                ∧ W (calls s ++ inference_setup G v)%list (inference_request v)
                  = Returns r
                ∧ classifier_answer W G (py_str py_repr v) v (calls s) = Response r)
          ∨ (∃ e, first_to_raise W (calls s) (inference_calls G v) e
                  ∧ classifier_answer W G (py_str py_repr v) v (calls s)
                    = Str ("Gemini call failed for URL: " ++ py_str py_repr v
                           ++ ". Error: " ++ exn_str e)))).
Proof.
  intros Hjson Hurl _ _. split_and!.
  - by rewrite (worker_run_with_url request m (PStr u) Hjson Hurl).
  - destruct (classifier_answer_cases W G u (PStr u) []) as [(r & Hf & Hr & Ha) | (e & Hf & Ha)].
    + left. by exists r.
    + right. exists e. split_and!; [done | done |]. apply failure_message_contains_url.
  - intros v s. split; [by rewrite call_gemini_run |].
    destruct (classifier_answer_cases W G (py_str py_repr v) v (calls s))
      as [(r & Hf & Hr & Ha) | (e & Hf & Ha)]; [left; by exists r | right; by exists e].
Qed.

Lemma no_url_field_key (request : Request) (v : pyval) :
  no_url_field request → get_json request = Returns v →
  ∀ m, v = PDict m → bool_decide (is_Some (m !! "url")) = false.
Proof.
  intros Hno Hj m ->. rewrite (Hno m Hj). apply bool_decide_false. by intros [x [=]].
Qed.


(** C4, amended: when the body is not an object with a "url" key, the
    worker makes no library call, so call_gemini is not invoked, and it
    answers with the 400 of the missing url or with a 500.  The status is
    400 exactly when get_json() returns a value that is falsy (None, false,
    0, an empty string, list or object) or in which the test "url" in value
    is false; in the other cases (get_json() raises, or the membership test
    or the subscript raises on a number, true, a list or a string) it is
    500. *)
Theorem worker_without_url_field (request : Request) :
  no_url_field request →
  calls (snd (api_call_worker W py_repr G request start)) = []
  ∧ (fst (api_call_worker W py_repr G request start) = Returns MissingUrl
     ∨ status (fst (api_call_worker W py_repr G request start)) = Some 500)
  ∧ (status (fst (api_call_worker W py_repr G request start)) = Some 400
     ↔ ∃ v, get_json request = Returns v
            ∧ (truthy v = false ∨ py_in "url" v = Returns false)).
Proof.
  intros Hno. pose proof (no_url_field_key request) as Hkey.
  unfold api_call_worker. run.
  destruct (get_json request) as [v|e] eqn:Hj; cycle 1.
  { split_and!; [done | by right | split; [by intros [=] | by intros (v & [=] & _)]]. }
  specialize (Hkey v Hno eq_refl).
  destruct v; cbn [truthy py_in getitem type_name];
    rewrite ?(Hkey _ eq_refl); repeat branch; cbn [fst snd status].
  all: split; [reflexivity | split; [first [by left | by right] |]].
  all: split; [intros Heq | intros (v & [= <-] & Hc)].
  all: try reflexivity.
  all: try discriminate Heq.
  all: try (eexists; split; [reflexivity |]; cbn [truthy py_in];
            rewrite ?(Hkey _ eq_refl); first [left; congruence | right; congruence]).
  all: cbn [truthy py_in] in Hc; rewrite ?(Hkey _ eq_refl) in Hc; destruct Hc; congruence.
Qed.


End Worker.

(** The theorem at a concrete request, with the classifier out of reach. *)
Lemma worker_valid_url_returns_200_witness :
  let W := Scenario.classifier_down in
  let G := Scenario.globals in
  let u := "gs://bucket/ad.mp4" in
  fst (api_call_worker W Scenario.repr G (Scenario.post_url u) start)
  = Returns (classifier_answer W G u (PStr u) [], 200)
  ∧ ((∃ r, all_return W [] (inference_calls G (PStr u))
           ∧ W (inference_setup G (PStr u)) (inference_request (PStr u)) = Returns r
           ∧ classifier_answer W G u (PStr u) [] = Response r)
     ∨ (∃ e, first_to_raise W [] (inference_calls G (PStr u)) e
             ∧ classifier_answer W G u (PStr u) []
               = Str ("Gemini call failed for URL: " ++ u ++ ". Error: " ++ exn_str e)
             ∧ contains u ("Gemini call failed for URL: " ++ u
                           ++ ". Error: " ++ exn_str e) = true))
  ∧ (∀ (v : pyval) (s : state),
       fst (call_gemini W Scenario.repr G v s)
       = Returns (classifier_answer W G (py_str Scenario.repr v) v (calls s))
       ∧ ((∃ r, all_return W (calls s) (inference_calls G v)
                ∧ W (calls s ++ inference_setup G v)%list (inference_request v)
                  = Returns r
                ∧ classifier_answer W G (py_str Scenario.repr v) v (calls s) = Response r)
          ∨ (∃ e, first_to_raise W (calls s) (inference_calls G v) e
                  ∧ classifier_answer W G (py_str Scenario.repr v) v (calls s)
                    = Str ("Gemini call failed for URL: " ++ py_str Scenario.repr v
                           ++ ". Error: " ++ exn_str e)))).
Proof.
  intros W G u.
  apply (worker_valid_url_returns_200 W Scenario.repr G (Scenario.post_url u)
           {[ "url" := PStr u ]} u);
    reflexivity.
Defined.

(** C4, amended, at the empty object. *)
Lemma worker_without_url_field_witness :
  calls (snd (api_call_worker Scenario.all_fine Scenario.repr Scenario.globals
                (Scenario.post (PDict ∅)) start)) = []
  ∧ (fst (api_call_worker Scenario.all_fine Scenario.repr Scenario.globals
            (Scenario.post (PDict ∅)) start) = Returns MissingUrl
     ∨ status (fst (api_call_worker Scenario.all_fine Scenario.repr Scenario.globals
                      (Scenario.post (PDict ∅)) start)) = Some 500)
  ∧ (status (fst (api_call_worker Scenario.all_fine Scenario.repr Scenario.globals
                    (Scenario.post (PDict ∅)) start)) = Some 400
     ↔ ∃ v, get_json (Scenario.post (PDict ∅)) = Returns v
            ∧ (truthy v = false ∨ py_in "url" v = Returns false)).
Proof.
  apply (worker_without_url_field Scenario.all_fine Scenario.repr Scenario.globals
           (Scenario.post (PDict ∅))).
  intros m [= <-]. reflexivity.
Defined.

(** C4 as stated fails on the body 5: it is not a JSON object, the
    classifier is not called, and the status is 500, not 400. *)
Lemma worker_number_body_is_500 :
  no_url_field (Scenario.post (PInt 5))
  ∧ status (fst (api_call_worker Scenario.all_fine Scenario.repr Scenario.globals
                   (Scenario.post (PInt 5)) start)) = Some 500
  ∧ status (fst (api_call_worker Scenario.all_fine Scenario.repr Scenario.globals
                   (Scenario.post (PInt 5)) start)) ≠ Some 400.
Proof. split_and!; [by intros m [=] | reflexivity | vm_compute; by intros [=]]. Qed.



Section InferenceRequest.

Context (W : World) (py_repr : pyval → string) (G : Globals).



End InferenceRequest.


Section QueueManager.

Context (W : World) (py_repr : pyval → string) (G : Globals).

(** C6, amended: when the client is built, the queue id is read, and the
    lookup raises an exception whose text does not contain NOT_FOUND,
    create_queue does not attempt creation and does not raise either: it
    logs the exception and returns normally to its caller. *)
Theorem lookup_failure_is_logged_not_raised (queue_id : pyval) (e : exn) :
  W [] CloudTasksClient = Returns () →
  get (QUEUE_CONFIG G) "queue_id" PNone = Returns queue_id →
  W [CloudTasksClient]
    (client_get_queue (queue_path (PROJECT_ID G) (LOCATION G) queue_id)) = Raises e →
  contains "NOT_FOUND" (exn_str e) = false →
  create_queue W py_repr G start
  = (Returns (),
     {| calls := [CloudTasksClient;
                  client_get_queue (queue_path (PROJECT_ID G) (LOCATION G) queue_id)];
        log := [{| log_level := ERROR;
                   log_msg := "Error checking/creating queue:";
                   log_exc := Some e |}];
        video_url := PNone |}).
Proof.
  intros Hclient Hid Hlookup Hnf. unfold create_queue. run.
  rewrite Hclient, Hid. cbn [fst snd calls log video_url app].
  rewrite Hlookup, Hnf. reflexivity.
Qed.


End QueueManager.

(** C6, amended, with a lookup answered 503. *)
Lemma lookup_failure_is_logged_not_raised_witness :
  let path := queue_path (Some "proj") "us-central1" (PStr "api-call-queue") in
  create_queue Scenario.lookup_unavailable Scenario.repr Scenario.globals start
  = (Returns (),
     {| calls := [CloudTasksClient; client_get_queue path];
        log := [{| log_level := ERROR;
                   log_msg := "Error checking/creating queue:";
                   log_exc := Some (Exception "ServiceUnavailable" "503 UNAVAILABLE") |}];
        video_url := PNone |}).
Proof.
  apply (lookup_failure_is_logged_not_raised Scenario.lookup_unavailable Scenario.repr
           Scenario.globals (PStr "api-call-queue")
           (Exception "ServiceUnavailable" "503 UNAVAILABLE"));
    reflexivity.
Defined.

(** C6 as stated fails when the lookup is answered 503: nothing is surfaced,
    create_queue returns as if the queue were there, and the request is
    queued with 202. *)
Lemma lookup_failure_not_surfaced :
  (∀ h p, Scenario.lookup_unavailable h (client_get_queue p)
          = Raises (Exception "ServiceUnavailable" "503 UNAVAILABLE"))
  ∧ contains "NOT_FOUND" "503 UNAVAILABLE" = false
  ∧ fst (create_queue Scenario.lookup_unavailable Scenario.repr Scenario.globals start)
    = Returns ()
  ∧ fst (api_endpoint Scenario.lookup_unavailable Scenario.repr Scenario.globals
           (Scenario.post_url "gs://bucket/ad.mp4") start)
    = Returns (Str "URL queued for processing. Task name: tasks/1", 202).
Proof. split_and!; [reflexivity | reflexivity | reflexivity | vm_compute; reflexivity]. Qed.



Section ConfigLoad.

Context (py_repr : pyval → string).



End ConfigLoad.


Section Intake.

Context (W : World) (py_repr : pyval → string) (G : Globals).

(** create_queue builds the client before anything else, and never creates
    a task. *)
Lemma create_queue_calls :
  In CloudTasksClient (calls (snd (create_queue W py_repr G start)))
  ∧ ∀ parent task,
      ¬ In (client_create_task parent task) (calls (snd (create_queue W py_repr G start))).
Proof.
  unfold create_queue. run.
  ask W; [| split; [by left | by intros ?? [[=] | []]]].
  destruct (get (QUEUE_CONFIG G) "queue_id" PNone) as [queue_id | e];
    cbn [fst snd calls log video_url app];
    [| split; [by left | by intros ?? [[=] | []]]].
  ask W; [split; [by left | by intros ?? [[=] | [[=] | []]]] |].
  branch; [| split; [by left | by intros ?? [[=] | [[=] | []]]]].
  destruct (get (QUEUE_CONFIG G) "rate_limits" (PDict ∅));
    cbn [fst snd calls log video_url app];
    [| split; [by left | by intros ?? [[=] | [[=] | []]]]].
  destruct (get (QUEUE_CONFIG G) "retry_config" (PDict ∅));
    cbn [fst snd calls log video_url app];
    [| split; [by left | by intros ?? [[=] | [[=] | []]]]].
  ask W; [| split; [by left | by intros ?? [[=] | [[=] | [[=] | []]]]]].
  ask W; (split; [by left | by intros ?? [[=] | [[=] | [[=] | [[=] | []]]]]]).
Qed.

(** C2: a create_task call made by api_endpoint means that the body was an
    object whose url is a string that starts with gs:// and ends with .mp4,
    and the task carries that url. *)
Theorem task_only_for_valid_url
    (request : Request) (parent : resource_path) (task : Task) :
  In (client_create_task parent task)
     (calls (snd (api_endpoint W py_repr G request start))) →
  ∃ (m : gmap string pyval) (u : string),
    get_json request = Returns (PDict m)
    ∧ m !! "url" = Some (PStr u)
    ∧ startswith u "gs://" = true
    ∧ endswith u ".mp4" = true
    ∧ body (http_request task) = PDict {[ "url" := PStr u ]}.
Proof.
  destruct create_queue_calls as [_ Hnone].
  unfold api_endpoint. run.
  destruct (create_queue W py_repr G start) as [[[]|e] s1];
    cbn [fst snd calls log video_url app] in *;
    [| intros Hin; by destruct (Hnone _ _ Hin)].
  destruct (get_json request) as [v|e] eqn:Hj;
    cbn [fst snd calls log video_url app];
    [| intros Hin; by destruct (Hnone _ _ Hin)].
  destruct v; cbn [truthy py_in getitem type_name py_startswith py_endswith];
    repeat branch;
    try (intros Hin; by destruct (Hnone _ _ Hin)).
  all: match goal with
       | H : ?m !! "url" = Some ?x |- _ =>
           destruct x; cbn [py_startswith py_endswith fst snd calls log video_url app];
           repeat branch;
           try (intros Hin; by destruct (Hnone _ _ Hin))
       end.
  all: unfold create_cloud_task; run; ask W;
    [| rewrite in_app_iff; intros [Hin | [[=] | []]]; by destruct (Hnone _ _ Hin)].
  all: destruct (get (QUEUE_CONFIG G) "queue_id" PNone) as [queue_id | e];
    cbn [fst snd calls log video_url app];
    [| rewrite in_app_iff; intros [Hin | [[=] | []]]; by destruct (Hnone _ _ Hin)].
  all: ask W; rewrite <- !app_assoc, in_app_iff; cbn [app In];
    (intros [Hin | [[=] | [[= <- <-] | []]]]; [by destruct (Hnone _ _ Hin) |]).
  all: eexists _, _; split_and!; try reflexivity; try eassumption.
  all: match goal with
       | H : negb ?b = false |- ?b = true => by apply negb_false_iff
       end.
Qed.

(** C3: once create_queue has returned, a body whose url is the string u
    is judged by two checks in this order and nothing else: without the
    prefix gs:// the answer is the 400 of the scheme check; with the prefix
    and without the suffix .mp4 it is the 400 of the extension check; with
    both, api_endpoint runs as if there were no check at all, going on to
    create the task.  So the answer is a 400 exactly when one of the two
    checks fails. *)
Theorem validation_rules
    (request : Request) (m : gmap string pyval) (u : string) :
  fst (create_queue W py_repr G start) = Returns () →
  get_json request = Returns (PDict m) →
  m !! "url" = Some (PStr u) →
  api_endpoint W py_repr G request start
  = (if startswith u "gs://" then
       if endswith u ".mp4" then
         try_except
           (create_queue W py_repr G ;;
            task ← create_cloud_task W py_repr G (PStr u);
            mret (Str ("URL queued for processing. Task name: " ++ task), 202))
           (λ e,
              logging_exception "Error in api_endpoint:" e ;;
              mret (Str ("Error: " ++ exn_str e), 500))
           start
       else (Returns InvalidExtension, snd (create_queue W py_repr G start))
     else (Returns InvalidScheme, snd (create_queue W py_repr G start)))
  ∧ (status (fst (api_endpoint W py_repr G request start)) = Some 400
     ↔ startswith u "gs://" && endswith u ".mp4" = false).
Proof.
  intros Hq Hj Hu. unfold api_endpoint. run.
  destruct (create_queue W py_repr G start) as [[[]|e] s1]; [| discriminate Hq].
  rewrite Hj. rewrite (truthy_dict_with_key _ _ _ Hu). unfold py_in.
  rewrite bool_decide_true by eauto. unfold getitem. rewrite Hu.
  cbn [py_startswith py_endswith fst snd].
  destruct (startswith u "gs://"); cbn [negb andb]; [| by split].
  destruct (endswith u ".mp4"); cbn [negb andb]; [| by split].
  split; [reflexivity |].
  destruct (create_cloud_task W py_repr G (PStr u) s1) as [[task|e] s2];
    cbn [fst snd status]; split; intros [=].
Qed.

(** C8, amended: for a request that fails validation, the library calls
    made by api_endpoint are those of create_queue, which runs before the
    request is read and starts by building the client; validation makes no
    call and no task is created.  The answer is a 400 when create_queue
    returned, and the 500 of the handler when create_queue raised. *)
Theorem rejected_request_calls (request : Request) :
  fails_validation request →
  calls (snd (api_endpoint W py_repr G request start))
  = calls (snd (create_queue W py_repr G start))
  ∧ In CloudTasksClient (calls (snd (api_endpoint W py_repr G request start)))
  ∧ (∀ parent task,
       ¬ In (client_create_task parent task)
           (calls (snd (api_endpoint W py_repr G request start))))
  ∧ (fst (create_queue W py_repr G start) = Returns () →
     status (fst (api_endpoint W py_repr G request start)) = Some 400)
  ∧ (∀ e, fst (create_queue W py_repr G start) = Raises e →
          fst (api_endpoint W py_repr G request start)
          = Returns (Str ("Error: " ++ exn_str e), 500)).
Proof.
  intros (v & Hj & Hbad).
  assert (Hcalls : calls (snd (api_endpoint W py_repr G request start))
                   = calls (snd (create_queue W py_repr G start))
                   ∧ (fst (create_queue W py_repr G start) = Returns () →
                      status (fst (api_endpoint W py_repr G request start)) = Some 400)
                   ∧ (∀ e, fst (create_queue W py_repr G start) = Raises e →
                           fst (api_endpoint W py_repr G request start)
                           = Returns (Str ("Error: " ++ exn_str e), 500))).
  { unfold api_endpoint. run.
    destruct (create_queue W py_repr G start) as [[[]|e] s1];
      cbn [fst snd calls log video_url app];
      [| split_and!; [reflexivity | by intros [=] | by intros ? [= ->]]].
    rewrite Hj. destruct Hbad as [Hf | [Hin | (m & u & -> & Hu & Hcheck)]].
    - rewrite Hf. by split_and!.
    - rewrite Hin. destruct (truthy v); by split_and!.
    - rewrite (truthy_dict_with_key _ _ _ Hu). unfold py_in.
      rewrite bool_decide_true by eauto. unfold getitem. rewrite Hu.
      cbn [py_startswith py_endswith fst snd].
      destruct (startswith u "gs://"); cbn [negb]; [| by split_and!].
      destruct Hcheck as [[=] | ->]. by split_and!. }
  destruct Hcalls as (Hcalls & H400 & H500). rewrite Hcalls.
  destruct create_queue_calls as [Hclient Hnone]. by split_and!.
Qed.

End Intake.

(** C2 on a valid request with every library answering: the task is
    created, for that url. *)
Lemma task_only_for_valid_url_witness :
  let path := queue_path (Some "proj") "us-central1" (PStr "api-call-queue") in
  let task :=
    {| http_request :=
         {| http_method := POST;
            http_url := "https://us-central1-proj.cloudfunctions.net/api-call-worker";
            headers := {[ "Content-type" := "application/json" ]};
            body := PDict {[ "url" := PStr "gs://bucket/ad.mp4" ]} |} |} in
  In (client_create_task path task)
     (calls (snd (api_endpoint Scenario.all_fine Scenario.repr Scenario.globals
                    (Scenario.post_url "gs://bucket/ad.mp4") start)))
  ∧ ∃ (m : gmap string pyval) (u : string),
      get_json (Scenario.post_url "gs://bucket/ad.mp4") = Returns (PDict m)
      ∧ m !! "url" = Some (PStr u)
      ∧ startswith u "gs://" = true
      ∧ endswith u ".mp4" = true
      ∧ body (http_request task) = PDict {[ "url" := PStr u ]}.
Proof.
  intros path task. split.
  - vm_compute. do 3 right. left. reflexivity.
  - apply (task_only_for_valid_url Scenario.all_fine Scenario.repr Scenario.globals
             (Scenario.post_url "gs://bucket/ad.mp4") path task).
    vm_compute. do 3 right. left. reflexivity.
Defined.

(** C3 on a url with the right scheme and another extension. *)
Lemma validation_rules_witness :
  api_endpoint Scenario.all_fine Scenario.repr Scenario.globals
    (Scenario.post_url "gs://bucket/ad.mov") start
  = (Returns InvalidExtension,
     snd (create_queue Scenario.all_fine Scenario.repr Scenario.globals start))
  ∧ (status (fst (api_endpoint Scenario.all_fine Scenario.repr Scenario.globals
                    (Scenario.post_url "gs://bucket/ad.mov") start)) = Some 400
     ↔ startswith "gs://bucket/ad.mov" "gs://" && endswith "gs://bucket/ad.mov" ".mp4"
       = false).
Proof.
  refine (validation_rules Scenario.all_fine Scenario.repr Scenario.globals
            (Scenario.post_url "gs://bucket/ad.mov")
            {[ "url" := PStr "gs://bucket/ad.mov" ]} "gs://bucket/ad.mov" _ _ _);
    reflexivity.
Defined.

(** C8, amended, on a url with the wrong scheme. *)
Lemma rejected_request_calls_witness :
  let request := Scenario.post_url "http://bucket/ad.mp4" in
  calls (snd (api_endpoint Scenario.all_fine Scenario.repr Scenario.globals request start))
  = calls (snd (create_queue Scenario.all_fine Scenario.repr Scenario.globals start))
  ∧ In CloudTasksClient
       (calls (snd (api_endpoint Scenario.all_fine Scenario.repr Scenario.globals
                      request start)))
  ∧ (∀ parent task,
       ¬ In (client_create_task parent task)
           (calls (snd (api_endpoint Scenario.all_fine Scenario.repr Scenario.globals
                          request start))))
  ∧ (fst (create_queue Scenario.all_fine Scenario.repr Scenario.globals start)
     = Returns () →
     status (fst (api_endpoint Scenario.all_fine Scenario.repr Scenario.globals
                    request start)) = Some 400)
  ∧ (∀ e, fst (create_queue Scenario.all_fine Scenario.repr Scenario.globals start)
          = Raises e →
          fst (api_endpoint Scenario.all_fine Scenario.repr Scenario.globals request start)
          = Returns (Str ("Error: " ++ exn_str e), 500)).
Proof.
  intros request.
  apply (rejected_request_calls Scenario.all_fine Scenario.repr Scenario.globals request).
  exists (PDict {[ "url" := PStr "http://bucket/ad.mp4" ]}).
  split; [reflexivity |]. right. right.
  exists {[ "url" := PStr "http://bucket/ad.mp4" ]}, "http://bucket/ad.mp4".
  split_and!; [reflexivity | reflexivity | left; reflexivity].
Defined.

(** C8 as stated fails on a url with the wrong scheme: the request is
    turned down with the 400 of the scheme check, and by then the client
    has been built and the queue looked up. *)
Lemma lookup_precedes_validation :
  api_endpoint Scenario.all_fine Scenario.repr Scenario.globals
    (Scenario.post_url "http://bucket/ad.mp4") start
  = (Returns InvalidScheme,
     {| calls := [CloudTasksClient;
                  client_get_queue
                    (queue_path (Some "proj") "us-central1" (PStr "api-call-queue"))];
        log := [{| log_level := INFO;
                   log_msg := "Queue 'api-call-queue' already exists.";
                   log_exc := None |}];
        video_url := PNone |}).
Proof. vm_compute. reflexivity. Qed.

(** ** The end-to-end scenarios, run *)

Section EndToEnd.

Import Scenario.

Example intake_accepts_gs_mp4 :
  fst (api_endpoint all_fine repr globals (post_url "gs://bucket/ad.mp4") start)
  = Returns (Str "URL queued for processing. Task name: tasks/1", 202).
Proof. vm_compute. reflexivity. Qed.

Example intake_rejects_http_scheme :
  fst (api_endpoint all_fine repr globals (post_url "http://bucket/ad.mp4") start)
  = Returns InvalidScheme.
Proof. vm_compute. reflexivity. Qed.

Example intake_rejects_mov_extension :
  fst (api_endpoint all_fine repr globals (post_url "gs://bucket/ad.mov") start)
  = Returns InvalidExtension.
Proof. vm_compute. reflexivity. Qed.

Example intake_extension_is_case_sensitive :
  fst (api_endpoint all_fine repr globals (post_url "gs://bucket/ad.MP4") start)
  = Returns InvalidExtension.
Proof. vm_compute. reflexivity. Qed.

Example intake_rejects_non_string_url :
  fst (api_endpoint all_fine repr globals (post (PDict {[ "url" := PInt 7 ]})) start)
  = Returns (Str "Error: 'int' object has no attribute 'startswith'", 500).
Proof. vm_compute. reflexivity. Qed.

Example worker_empty_object_is_400 :
  fst (api_call_worker all_fine repr globals (post (PDict ∅)) start) = Returns MissingUrl.
Proof. vm_compute. reflexivity. Qed.

Example worker_returns_model_response :
  fst (api_call_worker all_fine repr globals (post_url "gs://bucket/ad.mp4") start)
  = Returns (Response {| response_payload := "{}" |}, 200).
Proof. vm_compute. reflexivity. Qed.

Example worker_does_not_validate :
  fst (api_call_worker all_fine repr globals (post_url "http://bucket/ad.mov") start)
  = Returns (Response {| response_payload := "{}" |}, 200).
Proof. vm_compute. reflexivity. Qed.

Example module_load_reads_config :
  fst (load_module all_fine {[ "PROJECT_ID" := "proj" ]} start) = Returns globals.
Proof. vm_compute. reflexivity. Qed.

End EndToEnd.

(** ** Further properties of the configuration loader and the queue manager *)

Section LoaderAndQueue.

Context (W : World) (py_repr : pyval → string) (G : Globals).

(** X1: _load_queue_config never raises.  It opens the file and, only if
    that returned, parses it; when both calls return, its result is what
    the parser gave, whatever its type, and one INFO record is logged;
    otherwise its result is the empty dictionary and the exception is
    logged. *)
Theorem load_queue_config_never_raises :
  let opening := open_ "queue_config.yaml" "r" in
  (∃ f config,
     W [] opening = Returns f
     ∧ W [opening] (yaml_safe_load f) = Returns config
     ∧ _load_queue_config W start
       = (Returns config,
          {| calls := [opening; yaml_safe_load f];
             log := [{| log_level := INFO;
                        log_msg := "Queue configuration loaded from YAML.";
                        log_exc := None |}];
             video_url := PNone |}))
  ∨ (∃ e trace,
       _load_queue_config W start
       = (Returns (PDict ∅),
          {| calls := trace;
             log := [{| log_level := ERROR;
                        log_msg := "Error loading queue_config.yaml:";
                        log_exc := Some e |}];
             video_url := PNone |})
       ∧ (trace = [opening] ∧ W [] opening = Raises e
          ∨ ∃ f, trace = [opening; yaml_safe_load f]
                 ∧ W [] opening = Returns f
                 ∧ W [opening] (yaml_safe_load f) = Raises e)).
Proof.
  intros opening. subst opening. unfold _load_queue_config. run.
  ask W; [ask W |].
  - left. by eexists _, _.
  - right. eexists _, _. split; [reflexivity |]. right. by eexists.
  - right. eexists _, _. split; [reflexivity |]. by left.
Qed.

(** X2: when QUEUE_CONFIG is not a dictionary (the file parsed to None, a
    list or a scalar), api_endpoint answers 500 to every request, having
    done nothing but build the client: reading the queue id raises
    AttributeError before the lookup and before the request is read. *)
Theorem non_dict_config_fails_every_request (request : Request) :
  (∀ m, QUEUE_CONFIG G ≠ PDict m) →
  status (fst (api_endpoint W py_repr G request start)) = Some 500
  ∧ calls (snd (api_endpoint W py_repr G request start)) = [CloudTasksClient]
  ∧ (W [] CloudTasksClient = Returns () →
     fst (api_endpoint W py_repr G request start)
     = Returns (Str ("Error: '" ++ type_name (QUEUE_CONFIG G)
                     ++ "' object has no attribute 'get'"), 500)).
Proof.
  intros Hnd. unfold api_endpoint, create_queue. run.
  ask W; [| split_and!; [done | done | by intros [=]]].
  destruct (QUEUE_CONFIG G) eqn:Hcfg; try (by destruct (Hnd _ eq_refl));
    cbn [get fst snd calls log video_url app status]; by split_and!.
Qed.

(** X3: create_queue attempts a creation only after the lookup raised an
    exception whose text contains NOT_FOUND.  The attempt is the call of
    client.location_path followed, only if that returned, by one creation
    request, with the location as parent and a queue that has the looked-up
    path as name and the configuration's rate_limits and retry_config, each
    the empty dictionary when the key is missing. *)
Theorem creation_only_after_not_found (project : option string) (location : string) :
  In (client_location_path project location)
     (calls (snd (create_queue W py_repr G start))) →
  ∃ (config : gmap string pyval) (e : exn),
    let path := queue_path (PROJECT_ID G) (LOCATION G)
                  (default PNone (config !! "queue_id")) in
    let queue := {| name := path;
                    rate_limits := default (PDict ∅) (config !! "rate_limits");
                    retry_config := default (PDict ∅) (config !! "retry_config") |} in
    let attempt_to_create :=
      [ client_location_path (PROJECT_ID G) (LOCATION G);
        client_create_queue (location_path (PROJECT_ID G) (LOCATION G)) queue ] in
    let before := [CloudTasksClient; client_get_queue path] in
    QUEUE_CONFIG G = PDict config
    ∧ W [CloudTasksClient] (client_get_queue path) = Raises e
    ∧ contains "NOT_FOUND" (exn_str e) = true
    ∧ project = PROJECT_ID G
    ∧ location = LOCATION G
    ∧ calls (snd (create_queue W py_repr G start))
      = (before ++ fst (attempt W before attempt_to_create))%list.
Proof.
  unfold create_queue. run.
  ask W; [| by intros [[=] | []]].
  destruct (QUEUE_CONFIG G) as [| | | | | |config] eqn:Hcfg;
    cbn [get fst snd calls log video_url app];
    try (by intros [[=] | []]).
  ask W; [by intros [[=] | [[=] | []]] |].
  branch; [| by intros [[=] | [[=] | []]]].
  intros Hin. exists config, e. cbn zeta. cbn [attempt app]. revert Hin.
  repeat (ask W; cbn [app fst snd attempt]);
    cbn [In]; intros Hin;
    repeat match goal with
           | H : _ ∨ _ |- _ => destruct H as [H | H]
           end;
    try discriminate; try contradiction;
    injection Hin as <- <-; by split_and!.
Qed.

(** X4: a lookup failure never leaves create_queue.  When create_queue
    raises, the exception comes from building the client, from reading the
    queue id off a configuration that is not a dictionary, or from the
    attempt to create made after a NOT_FOUND lookup: from
    client.location_path or, if that returned, from the creation request. *)
Theorem create_queue_raises_only (e : exn) :
  fst (create_queue W py_repr G start) = Raises e →
  W [] CloudTasksClient = Raises e
  ∨ ((∀ m, QUEUE_CONFIG G ≠ PDict m) ∧ e = AttributeError (QUEUE_CONFIG G) "get")
  ∨ ∃ (config : gmap string pyval) (e0 : exn),
      let path := queue_path (PROJECT_ID G) (LOCATION G)
                    (default PNone (config !! "queue_id")) in
      let queue := {| name := path;
                      rate_limits := default (PDict ∅) (config !! "rate_limits");
                      retry_config := default (PDict ∅) (config !! "retry_config") |} in
      let attempt_to_create :=
        [ client_location_path (PROJECT_ID G) (LOCATION G);
          client_create_queue (location_path (PROJECT_ID G) (LOCATION G)) queue ] in
      QUEUE_CONFIG G = PDict config
      ∧ W [CloudTasksClient] (client_get_queue path) = Raises e0
      ∧ contains "NOT_FOUND" (exn_str e0) = true
      ∧ first_to_raise W [CloudTasksClient; client_get_queue path] attempt_to_create e.
Proof.
  unfold create_queue. run.
  ask W; [| intros [= <-]; by left].
  destruct (QUEUE_CONFIG G) as [| | | | | |config] eqn:Hcfg;
    cbn [get fst snd calls log video_url app];
    try (intros [= <-]; right; left; by split).
  ask W; [by intros [=] |].
  branch; [| by intros [=]].
  intros Hraise. right. right. exists config, e0. cbn zeta.
  rewrite <- attempt_failure_iff. cbn [attempt]. revert Hraise.
  repeat (ask W; cbn [app fst snd attempt]); intros [= <-]; by split_and!.
Qed.

(** X5: when the queue is there, create_queue only looks: the lookup
    returning is all it takes for create_queue to return, with the client
    and the lookup as its only calls and one INFO record. *)
Theorem existing_queue_is_left_alone (queue_id : pyval) :
  W [] CloudTasksClient = Returns () →
  get (QUEUE_CONFIG G) "queue_id" PNone = Returns queue_id →
  W [CloudTasksClient]
    (client_get_queue (queue_path (PROJECT_ID G) (LOCATION G) queue_id)) = Returns () →
  create_queue W py_repr G start
  = (Returns (),
     {| calls := [CloudTasksClient;
                  client_get_queue (queue_path (PROJECT_ID G) (LOCATION G) queue_id)];
        log := [{| log_level := INFO;
                   log_msg := "Queue '" ++ py_str py_repr queue_id ++ "' already exists.";
                   log_exc := None |}];
        video_url := PNone |}).
Proof.
  intros Hclient Hid Hlookup. unfold create_queue. run.
  rewrite Hclient, Hid. cbn [fst snd calls log video_url app].
  rewrite Hlookup. reflexivity.
Qed.

End LoaderAndQueue.

(** ** Further properties of the intake endpoint *)

Section IntakeAnswers.

Context (W : World) (py_repr : pyval → string) (G : Globals).

Lemma no_task_in_filter (l : list call) :
  (∀ parent task, ¬ In (client_create_task parent task) l) →
  filter is_create_task l = [].
Proof.
  induction l as [|c l IH]; intros Hno; [done |].
  rewrite filter_cons. destruct c; simpl;
    try (apply IH; intros parent' task' Hin; apply (Hno parent' task'); by right).
  destruct (Hno parent task). by left.
Qed.

(** All the paths of api_endpoint on [request], one goal each: create_queue
    first, then the body, the url, the two checks and the enqueue. *)
Ltac intake request :=
  unfold api_endpoint; run;
  destruct (create_queue W py_repr G start) as [[[]|?e] s1] eqn:Hq;
  cbn [fst snd calls log video_url app status] in *;
  [ destruct (get_json request) as [v|?e] eqn:Hj;
    cbn [fst snd calls log video_url app status];
    [ destruct v; cbn [truthy py_in getitem type_name py_startswith py_endswith];
      repeat branch;
      try match goal with
          | H : ?m !! "url" = Some ?x |- _ =>
              destruct x;
              cbn [py_startswith py_endswith type_name fst snd calls log video_url
                   app status];
              repeat branch
          end
    | ]
  | ].

(** The paths of the enqueue, from the state [s1] create_queue left. *)
Ltac enqueue :=
  unfold create_cloud_task; run;
  try (ask W;
       [ destruct (get (QUEUE_CONFIG G) "queue_id" PNone) as [queue_id | ?e] eqn:Hid;
         cbn [fst snd calls log video_url app status];
         [ ask W | ]
       | ]).

(** X6: api_endpoint never raises, and its status is 202, 400 or 500. *)
Theorem intake_always_answers (request : Request) :
  ∃ b code,
    fst (api_endpoint W py_repr G request start) = Returns (b, code)
    ∧ (code = 202 ∨ code = 400 ∨ code = 500).
Proof.
  intake request; enqueue; eexists _, _; (split; [reflexivity | auto]).
Qed.

(** X7: a 202 means that the body was an object whose url is a string with
    the prefix gs:// and the suffix .mp4, that create_queue returned, and
    that the queue accepted one task: a POST to the worker's address, named
    after LOCATION and PROJECT_ID (None when unset), with the url as its
    payload, under the queue path of the configuration.  The answer carries
    the name the queue gave to the task, and the client and the task
    creation are the only calls made after create_queue. *)
Theorem accepted_means_task_created (request : Request) :
  status (fst (api_endpoint W py_repr G request start)) = Some 202 →
  ∃ (m : gmap string pyval) (u : string) (queue_id : pyval) (r : TaskResponse),
    let before := calls (snd (create_queue W py_repr G start)) in
    let path := queue_path (PROJECT_ID G) (LOCATION G) queue_id in
    let task :=
      {| http_request :=
           {| http_method := POST;
              http_url := "https://" ++ LOCATION G ++ "-" ++ default "None" (PROJECT_ID G)
                          ++ ".cloudfunctions.net/api-call-worker";
              headers := {[ "Content-type" := "application/json" ]};
              body := PDict {[ "url" := PStr u ]} |} |} in
    get_json request = Returns (PDict m)
    ∧ m !! "url" = Some (PStr u)
    ∧ startswith u "gs://" = true
    ∧ endswith u ".mp4" = true
    ∧ fst (create_queue W py_repr G start) = Returns ()
    ∧ get (QUEUE_CONFIG G) "queue_id" PNone = Returns queue_id
    ∧ W (before ++ [CloudTasksClient])%list (client_create_task path task) = Returns r
    ∧ calls (snd (api_endpoint W py_repr G request start))
      = (before ++ [CloudTasksClient; client_create_task path task])%list
    ∧ fst (api_endpoint W py_repr G request start)
      = Returns (Str ("URL queued for processing. Task name: " ++ task_name r), 202).
Proof.
  intake request; enqueue; cbn [status]; intros [=].
  eexists _, _, _, _. cbn zeta.
  split_and!; try reflexivity; try eassumption;
    try (by apply negb_false_iff).
  by rewrite <- app_assoc.
Qed.

(** X8: the enqueue is tried once.  api_endpoint makes at most one
    create_task call, and it is the last call it makes: when the call
    raises, the answer is the 500 with the text of the exception; when it
    returns, the answer is the 202 with the task's name. *)
Theorem enqueue_is_tried_once (request : Request) :
  (length (filter is_create_task (calls (snd (api_endpoint W py_repr G request start))))
   ≤ 1)%nat
  ∧ ∀ parent task,
      In (client_create_task parent task)
         (calls (snd (api_endpoint W py_repr G request start))) →
      ∃ h, calls (snd (api_endpoint W py_repr G request start))
           = (h ++ [client_create_task parent task])%list
           ∧ match W h (client_create_task parent task) with
             | Returns r =>
                 fst (api_endpoint W py_repr G request start)
                 = Returns (Str ("URL queued for processing. Task name: "
                                 ++ task_name r), 202)
             | Raises e =>
                 fst (api_endpoint W py_repr G request start)
                 = Returns (Str ("Error: " ++ exn_str e), 500)
             end.
Proof.
  generalize (create_queue_calls W py_repr G). intake request; enqueue; intros [_ Hnone].
  all: pose proof (no_task_in_filter _ Hnone) as Hfilter.
  all: rewrite <- ?app_assoc; cbn [app]; rewrite ?filter_app, Hfilter.
  all: split; [simpl; lia |].
  all: intros parent task; rewrite ?in_app_iff; cbn [In].
  all: intros Hin;
    repeat match goal with
           | H : _ ∨ _ |- _ => destruct H as [H | H]
           end;
    try discriminate; try contradiction; try (by destruct (Hnone _ _ Hin)).
  all: injection Hin as <- <-.
  all: eexists (_ ++ [_])%list; rewrite <- app_assoc; (split; [reflexivity |]).
  all: match goal with
       | H : W ?h ?c = _ |- context [W ?h ?c] => by rewrite H
       end.
Qed.

(** X9: every 500 of api_endpoint is logged.  The answer is then the text
    of an exception, and the last logging record is the ERROR record made
    by the handler for that exception. *)
Theorem intake_500_is_logged (request : Request) :
  status (fst (api_endpoint W py_repr G request start)) = Some 500 →
  ∃ e records,
    fst (api_endpoint W py_repr G request start)
    = Returns (Str ("Error: " ++ exn_str e), 500)
    ∧ log (snd (api_endpoint W py_repr G request start))
      = (records ++ [{| log_level := ERROR;
                        log_msg := "Error in api_endpoint:";
                        log_exc := Some e |}])%list.
Proof.
  intake request; enqueue; cbn [status]; intros [=];
    eexists _, _; (split; reflexivity).
Qed.

(** X10: a url that is not a string is not turned down with a 400.  Once
    create_queue has returned, a body whose url is null, a boolean, a
    number, a list or an object makes the scheme check raise
    AttributeError, and the answer is a 500; no call is made after
    create_queue. *)
Theorem non_string_url_is_500
    (request : Request) (m : gmap string pyval) (v : pyval) :
  fst (create_queue W py_repr G start) = Returns () →
  get_json request = Returns (PDict m) →
  m !! "url" = Some v →
  (∀ u, v ≠ PStr u) →
  fst (api_endpoint W py_repr G request start)
  = Returns (Str ("Error: '" ++ type_name v
                  ++ "' object has no attribute 'startswith'"), 500)
  ∧ calls (snd (api_endpoint W py_repr G request start))
    = calls (snd (create_queue W py_repr G start)).
Proof.
  intros Hq Hj Hv Hns. unfold api_endpoint. run.
  destruct (create_queue W py_repr G start) as [[[]|e] s1]; [| discriminate Hq].
  rewrite Hj. rewrite (truthy_dict_with_key _ _ _ Hv). unfold py_in.
  rewrite bool_decide_true by eauto. unfold getitem. rewrite Hv.
  destruct v; try (by destruct (Hns _ eq_refl)); by cbn.
Qed.

(** X11: a body that cannot be read is not turned down with a 400 either.
    Once create_queue has returned, an exception raised by get_json() ends
    in the 500 of the handler, with the text of the exception, and no call
    is made after create_queue. *)
Theorem unreadable_body_is_500 (request : Request) (e : exn) :
  fst (create_queue W py_repr G start) = Returns () →
  get_json request = Raises e →
  fst (api_endpoint W py_repr G request start)
  = Returns (Str ("Error: " ++ exn_str e), 500)
  ∧ calls (snd (api_endpoint W py_repr G request start))
    = calls (snd (create_queue W py_repr G start)).
Proof.
  intros Hq Hj. unfold api_endpoint. run.
  destruct (create_queue W py_repr G start) as [[[]|e'] s1]; [| discriminate Hq].
  rewrite Hj. by cbn.
Qed.

(** X15: the queue is checked on every request, and the intake talks to
    the queue service only.  Whatever the request, the calls of
    api_endpoint are those of create_queue followed by nothing, by the
    building of a second client, or by that and one task creation; it never
    calls the inference service. *)
Theorem queue_is_checked_on_every_request (request : Request) :
  ∃ rest,
    calls (snd (api_endpoint W py_repr G request start))
    = (calls (snd (create_queue W py_repr G start)) ++ rest)%list
    ∧ In CloudTasksClient (calls (snd (create_queue W py_repr G start)))
    ∧ (rest = []
       ∨ rest = [CloudTasksClient]
       ∨ ∃ parent task, rest = [CloudTasksClient; client_create_task parent task]).
Proof.
  generalize (create_queue_calls W py_repr G). intake request; enqueue; intros [Hclient _].
  all: rewrite <- ?app_assoc; cbn [app].
  all: first [ exists []; rewrite app_nil_r; by split_and!; [| | left]
             | eexists; split_and!; [reflexivity | done | by right; left]
             | eexists; split_and!; [reflexivity | done | right; right; by eexists _, _] ].
Qed.

(** What a task created by api_endpoint carries. *)
Lemma created_task_payload (request : Request) (parent : resource_path) (task : Task) :
  In (client_create_task parent task)
     (calls (snd (api_endpoint W py_repr G request start))) →
  ∃ m u, get_json request = Returns (PDict m)
         ∧ m !! "url" = Some (PStr u)
         ∧ body (http_request task) = PDict {[ "url" := PStr u ]}.
Proof.
  generalize (create_queue_calls W py_repr G). intake request; enqueue; intros [_ Hnone].
  all: rewrite <- ?app_assoc; cbn [app]; rewrite ?in_app_iff; cbn [In].
  all: intros Hin;
    repeat match goal with
           | H : _ ∨ _ |- _ => destruct H as [H | H]
           end;
    try discriminate; try contradiction; try (by destruct (Hnone _ _ Hin)).
  all: injection Hin as <- <-; eexists _, _; split_and!; [reflexivity | eassumption | reflexivity].
Qed.

End IntakeAnswers.

(** ** Further properties of the classifier and the worker *)

Section ClassifierAndWorker.

Context (W : World) (py_repr : pyval → string) (G : Globals).


(** X13: the worker checks nothing about the url.  On a body with a "url"
    entry, whatever the type and the text of its value, it runs the
    classifier on that value: its answer is the 200 with the answer of the
    classifier, its calls and logging records are the classifier's, and the
    generate_content request carrying the value as the uri of its video
    part is made exactly when the four calls that prepare it return, once. *)
Theorem worker_classifies_what_it_is_given
    (request : Request) (m : gmap string pyval) (u : pyval) :
  get_json request = Returns (PDict m) →
  m !! "url" = Some u →
  api_call_worker W py_repr G request start
  = (Returns (classifier_answer W G (py_str py_repr u) u [], 200),
     {| calls := fst (attempt W [] (inference_calls G u));
        log := classifier_log W G (py_str py_repr u) u [];
        video_url := u |})
  ∧ (all_return W [] (inference_setup G u)
     ↔ In (model_generate_content inference_model
             [Part_from_uri "video/mp4" u; Text "Please classify"] inference_config)
          (calls (snd (api_call_worker W py_repr G request start))))
  ∧ (length (filter is_generate_content
               (calls (snd (api_call_worker W py_repr G request start)))) ≤ 1)%nat.
Proof.
  intros Hj Hu. rewrite (worker_run_with_url W py_repr G request m u Hj Hu).
  split; [reflexivity |]. cbn [snd calls]. rewrite <- attempt_none_iff.
  unfold classifier_calls, inference_calls, inference_setup, inference_request.
  cbn [attempt app].
  repeat (ask W; cbn [app fst snd attempt]).
  all: split; [split |]; try (by intros [=]); try (simpl; lia).
  all: try (intros _; cbn [In]; by auto 10).
  all: cbn [In]; intros Hin;
    repeat match goal with
           | H : _ ∨ _ |- _ => destruct H as [H | H]
           end;
    try discriminate; try contradiction.
Qed.

End ClassifierAndWorker.

Section IntakeToWorker.

Context (W W' : World) (py_repr : pyval → string) (G : Globals).

(** X14: what the intake enqueues, the worker accepts.  A task created by
    api_endpoint in a world [W] carries the url of the request; a worker
    invoked, in any world [W'], with a body that parses to the object
    serialised into the task runs the classifier on that url and answers
    200 with the classifier's answer as [W'] decides it, its calls being
    the classifier's, in order and up to the first that raises. *)
Theorem queued_task_is_accepted_by_worker
    (request : Request) (parent : resource_path) (task : Task) :
  In (client_create_task parent task)
     (calls (snd (api_endpoint W py_repr G request start))) →
  let delivery := {| get_json := Returns (body (http_request task)) |} in
  ∃ (m : gmap string pyval) (u : string),
    get_json request = Returns (PDict m)
    ∧ m !! "url" = Some (PStr u)
    ∧ body (http_request task) = PDict {[ "url" := PStr u ]}
    ∧ api_call_worker W' py_repr G delivery start
      = (Returns (classifier_answer W' G u (PStr u) [], 200),
         {| calls := fst (attempt W' [] (inference_calls G (PStr u)));
            log := classifier_log W' G u (PStr u) [];
            video_url := PStr u |}).
Proof.
  intros Hin delivery.
  destruct (created_task_payload W py_repr G request parent task Hin)
    as (m & u & Hrequest & Hurl & Hbody).
  assert (Hj : get_json delivery = Returns (PDict {[ "url" := PStr u ]})).
  { subst delivery. cbn [get_json]. by rewrite Hbody. }
  assert (Hu : ({[ "url" := PStr u ]} : gmap string pyval) !! "url" = Some (PStr u))
    by apply lookup_singleton_eq.
  exists m, u. split_and!; [done | done | done |].
  by rewrite (worker_run_with_url W' py_repr G delivery _ _ Hj Hu).
Qed.

End IntakeToWorker.

(** ** The further properties at concrete inputs *)

(** X2 with a configuration parsed to None. *)
Lemma non_dict_config_fails_every_request_witness :
  let request := Scenario.post_url "gs://bucket/ad.mp4" in
  let G := Scenario.globals_without_config in
  status (fst (api_endpoint Scenario.all_fine Scenario.repr G request start)) = Some 500
  ∧ calls (snd (api_endpoint Scenario.all_fine Scenario.repr G request start))
    = [CloudTasksClient]
  ∧ (Scenario.all_fine [] CloudTasksClient = Returns () →
     fst (api_endpoint Scenario.all_fine Scenario.repr G request start)
     = Returns (Str ("Error: '" ++ type_name (QUEUE_CONFIG G)
                     ++ "' object has no attribute 'get'"), 500)).
Proof.
  intros request G.
  apply (non_dict_config_fails_every_request Scenario.all_fine Scenario.repr G request).
  intros m. discriminate.
Defined.

(** X3 in a creation race, with the client the program is written for:
    the attempt stops at client.location_path. *)
Lemma creation_only_after_not_found_witness :
  let W := Scenario.creation_race in
  let G := Scenario.globals in
  In (client_location_path (Some "proj") "us-central1")
     (calls (snd (create_queue W Scenario.repr G start)))
  ∧ ∃ (config : gmap string pyval) (e : exn),
      let path := queue_path (PROJECT_ID G) (LOCATION G)
                    (default PNone (config !! "queue_id")) in
      let queue := {| name := path;
                      rate_limits := default (PDict ∅) (config !! "rate_limits");
                      retry_config := default (PDict ∅) (config !! "retry_config") |} in
      let attempt_to_create :=
        [ client_location_path (PROJECT_ID G) (LOCATION G);
          client_create_queue (location_path (PROJECT_ID G) (LOCATION G)) queue ] in
      let before := [CloudTasksClient; client_get_queue path] in
      QUEUE_CONFIG G = PDict config
      ∧ W [CloudTasksClient] (client_get_queue path) = Raises e
      ∧ contains "NOT_FOUND" (exn_str e) = true
      ∧ Some "proj" = PROJECT_ID G
      ∧ "us-central1" = LOCATION G
      ∧ calls (snd (create_queue W Scenario.repr G start))
        = (before ++ fst (attempt W before attempt_to_create))%list.
Proof.
  intros W G. split.
  - vm_compute. do 2 right. left. reflexivity.
  - apply (creation_only_after_not_found W Scenario.repr G (Some "proj") "us-central1").
    vm_compute. do 2 right. left. reflexivity.
Defined.

(** X4 in a creation race: what create_queue raises is what the attempt to
    create raised. *)
Lemma create_queue_raises_only_witness :
  let W := Scenario.creation_race in
  let G := Scenario.globals in
  let e := Exception "AttributeError"
             "'CloudTasksClient' object has no attribute 'location_path'" in
  W [] CloudTasksClient = Raises e
  ∨ ((∀ m, QUEUE_CONFIG G ≠ PDict m) ∧ e = AttributeError (QUEUE_CONFIG G) "get")
  ∨ ∃ (config : gmap string pyval) (e0 : exn),
      let path := queue_path (PROJECT_ID G) (LOCATION G)
                    (default PNone (config !! "queue_id")) in
      let queue := {| name := path;
                      rate_limits := default (PDict ∅) (config !! "rate_limits");
                      retry_config := default (PDict ∅) (config !! "retry_config") |} in
      let attempt_to_create :=
        [ client_location_path (PROJECT_ID G) (LOCATION G);
          client_create_queue (location_path (PROJECT_ID G) (LOCATION G)) queue ] in
      QUEUE_CONFIG G = PDict config
      ∧ W [CloudTasksClient] (client_get_queue path) = Raises e0
      ∧ contains "NOT_FOUND" (exn_str e0) = true
      ∧ first_to_raise W [CloudTasksClient; client_get_queue path] attempt_to_create e.
Proof.
  intros W G e.
  apply (create_queue_raises_only W Scenario.repr G e).
  vm_compute. reflexivity.
Defined.

(** X5 with every library answering. *)
Lemma existing_queue_is_left_alone_witness :
  let path := queue_path (Some "proj") "us-central1" (PStr "api-call-queue") in
  create_queue Scenario.all_fine Scenario.repr Scenario.globals start
  = (Returns (),
     {| calls := [CloudTasksClient; client_get_queue path];
        log := [{| log_level := INFO;
                   log_msg := "Queue 'api-call-queue' already exists.";
                   log_exc := None |}];
        video_url := PNone |}).
Proof.
  refine (existing_queue_is_left_alone Scenario.all_fine Scenario.repr Scenario.globals
            (PStr "api-call-queue") _ _ _);
    reflexivity.
Defined.

(** X7 on an accepted request. *)
Lemma accepted_means_task_created_witness :
  let W := Scenario.all_fine in
  let G := Scenario.globals in
  let request := Scenario.post_url "gs://bucket/ad.mp4" in
  ∃ (m : gmap string pyval) (u : string) (queue_id : pyval) (r : TaskResponse),
    let before := calls (snd (create_queue W Scenario.repr G start)) in
    let path := queue_path (PROJECT_ID G) (LOCATION G) queue_id in
    let task :=
      {| http_request :=
           {| http_method := POST;
              http_url := "https://" ++ LOCATION G ++ "-" ++ default "None" (PROJECT_ID G)
                          ++ ".cloudfunctions.net/api-call-worker";
              headers := {[ "Content-type" := "application/json" ]};
              body := PDict {[ "url" := PStr u ]} |} |} in
    get_json request = Returns (PDict m)
    ∧ m !! "url" = Some (PStr u)
    ∧ startswith u "gs://" = true
    ∧ endswith u ".mp4" = true
    ∧ fst (create_queue W Scenario.repr G start) = Returns ()
    ∧ get (QUEUE_CONFIG G) "queue_id" PNone = Returns queue_id
    ∧ W (before ++ [CloudTasksClient])%list (client_create_task path task) = Returns r
    ∧ calls (snd (api_endpoint W Scenario.repr G request start))
      = (before ++ [CloudTasksClient; client_create_task path task])%list
    ∧ fst (api_endpoint W Scenario.repr G request start)
      = Returns (Str ("URL queued for processing. Task name: " ++ task_name r), 202).
Proof.
  intros W G request.
  apply (accepted_means_task_created W Scenario.repr G request).
  vm_compute. reflexivity.
Defined.

(** X8 when the queue service refuses the task: one try, then the 500. *)
Lemma enqueue_is_tried_once_witness :
  let W := Scenario.enqueue_refused in
  let request := Scenario.post_url "gs://bucket/ad.mp4" in
  let path := queue_path (Some "proj") "us-central1" (PStr "api-call-queue") in
  let task :=
    {| http_request :=
         {| http_method := POST;
            http_url := "https://us-central1-proj.cloudfunctions.net/api-call-worker";
            headers := {[ "Content-type" := "application/json" ]};
            body := PDict {[ "url" := PStr "gs://bucket/ad.mp4" ]} |} |} in
  In (client_create_task path task)
     (calls (snd (api_endpoint W Scenario.repr Scenario.globals request start)))
  ∧ ∃ h, calls (snd (api_endpoint W Scenario.repr Scenario.globals request start))
         = (h ++ [client_create_task path task])%list
         ∧ match W h (client_create_task path task) with
           | Returns r =>
               fst (api_endpoint W Scenario.repr Scenario.globals request start)
               = Returns (Str ("URL queued for processing. Task name: "
                               ++ task_name r), 202)
           | Raises e =>
               fst (api_endpoint W Scenario.repr Scenario.globals request start)
               = Returns (Str ("Error: " ++ exn_str e), 500)
           end.
Proof.
  intros W request path task. split.
  - vm_compute. do 3 right. left. reflexivity.
  - apply (enqueue_is_tried_once W Scenario.repr Scenario.globals request).
    vm_compute. do 3 right. left. reflexivity.
Defined.

(** X9 in a creation race. *)
Lemma intake_500_is_logged_witness :
  let W := Scenario.creation_race in
  let request := Scenario.post_url "gs://bucket/ad.mp4" in
  ∃ e records,
    fst (api_endpoint W Scenario.repr Scenario.globals request start)
    = Returns (Str ("Error: " ++ exn_str e), 500)
    ∧ log (snd (api_endpoint W Scenario.repr Scenario.globals request start))
      = (records ++ [{| log_level := ERROR;
                        log_msg := "Error in api_endpoint:";
                        log_exc := Some e |}])%list.
Proof.
  intros W request.
  apply (intake_500_is_logged W Scenario.repr Scenario.globals request).
  vm_compute. reflexivity.
Defined.

(** X10 on the url 7. *)
Lemma non_string_url_is_500_witness :
  let W := Scenario.all_fine in
  let request := Scenario.post (PDict {[ "url" := PInt 7 ]}) in
  fst (api_endpoint W Scenario.repr Scenario.globals request start)
  = Returns (Str ("Error: '" ++ type_name (PInt 7)
                  ++ "' object has no attribute 'startswith'"), 500)
  ∧ calls (snd (api_endpoint W Scenario.repr Scenario.globals request start))
    = calls (snd (create_queue W Scenario.repr Scenario.globals start)).
Proof.
  intros W request.
  apply (non_string_url_is_500 W Scenario.repr Scenario.globals request
           {[ "url" := PInt 7 ]} (PInt 7));
    [reflexivity | reflexivity | reflexivity | intros u; discriminate].
Defined.

(** X11 on a body that is not JSON. *)
Lemma unreadable_body_is_500_witness :
  let W := Scenario.all_fine in
  fst (api_endpoint W Scenario.repr Scenario.globals Scenario.unreadable start)
  = Returns (Str ("Error: " ++ "400 Bad Request: Failed to decode JSON object"), 500)
  ∧ calls (snd (api_endpoint W Scenario.repr Scenario.globals Scenario.unreadable start))
    = calls (snd (create_queue W Scenario.repr Scenario.globals start)).
Proof.
  intros W.
  apply (unreadable_body_is_500 W Scenario.repr Scenario.globals Scenario.unreadable
           (Exception "BadRequest" "400 Bad Request: Failed to decode JSON object"));
    reflexivity.
Defined.

(** X13 on a url that the intake would turn down twice. *)
Lemma worker_classifies_what_it_is_given_witness :
  let W := Scenario.all_fine in
  let G := Scenario.globals in
  let u := PStr "http://bucket/ad.mov" in
  let request := Scenario.post_url "http://bucket/ad.mov" in
  api_call_worker W Scenario.repr G request start
  = (Returns (classifier_answer W G (py_str Scenario.repr u) u [], 200),
     {| calls := fst (attempt W [] (inference_calls G u));
        log := classifier_log W G (py_str Scenario.repr u) u [];
        video_url := u |})
  ∧ (all_return W [] (inference_setup G u)
     ↔ In (model_generate_content inference_model
             [Part_from_uri "video/mp4" u; Text "Please classify"] inference_config)
          (calls (snd (api_call_worker W Scenario.repr G request start))))
  ∧ (length (filter is_generate_content
               (calls (snd (api_call_worker W Scenario.repr G request start)))) ≤ 1)%nat.
Proof.
  intros W G u request.
  apply (worker_classifies_what_it_is_given W Scenario.repr G request
           {[ "url" := u ]} u);
    reflexivity.
Defined.

(** X14: a task queued while everything answers, delivered to a worker
    that cannot reach the inference service. *)
Lemma queued_task_is_accepted_by_worker_witness :
  let W := Scenario.all_fine in
  let W' := Scenario.classifier_down in
  let G := Scenario.globals in
  let request := Scenario.post_url "gs://bucket/ad.mp4" in
  let path := queue_path (Some "proj") "us-central1" (PStr "api-call-queue") in
  let task :=
    {| http_request :=
         {| http_method := POST;
            http_url := "https://us-central1-proj.cloudfunctions.net/api-call-worker";
            headers := {[ "Content-type" := "application/json" ]};
            body := PDict {[ "url" := PStr "gs://bucket/ad.mp4" ]} |} |} in
  let delivery := {| get_json := Returns (body (http_request task)) |} in
  In (client_create_task path task)
     (calls (snd (api_endpoint W Scenario.repr G request start)))
  ∧ ∃ (m : gmap string pyval) (u : string),
      get_json request = Returns (PDict m)
      ∧ m !! "url" = Some (PStr u)
      ∧ body (http_request task) = PDict {[ "url" := PStr u ]}
      ∧ api_call_worker W' Scenario.repr G delivery start
        = (Returns (classifier_answer W' G u (PStr u) [], 200),
           {| calls := fst (attempt W' [] (inference_calls G (PStr u)));
              log := classifier_log W' G u (PStr u) [];
              video_url := PStr u |}).
Proof.
  intros W W' G request path task delivery. split.
  - vm_compute. do 3 right. left. reflexivity.
  - apply (queued_task_is_accepted_by_worker W W' Scenario.repr G request path task).
    vm_compute. do 3 right. left. reflexivity.
Defined.
